(** * Level-gated logging macros of [logging/logging.c]

    The C file is a set of preprocessor macros around [printf].  The macros
    are embedded as Rocq functions of the build configuration (the [-D]
    definitions given to the compiler) and of the call site ([__FILE__] and
    [__LINE__]).  Expanding a macro either fails to build or yields a
    statement; a statement is a state transformer over the standard output
    stream. *)

From Stdlib Require Import ZArith QArith String Ascii List Bool Lia.
From Stdlib Require Import DecimalString DecimalZ DecimalPos.
Import ListNotations.

Local Open Scope string_scope.
Local Open Scope Z_scope.

(** ** Build results and run-time statements *)

(** Result of preprocessing and compiling a piece of text. *)
Inductive build (A : Type) : Type :=
| Built (a : A)
| BuildError (why : string).
Arguments Built {A} a.
Arguments BuildError {A} why.

Definition build_bind {A B} (b : build A) (k : A -> build B) : build B :=
  match b with
  | Built a => k a
  | BuildError why => BuildError why
  end.

Notation "x <-- b ;; k" := (build_bind b (fun x => k))
  (at level 61, b at next level, right associativity).

(** Everything the program has written to standard output so far. *)
Definition stdout := string.

(** A computation of the running program: it threads the output stream and
    returns a value.  [None] stands for a call of [printf] whose behaviour
    the C standard leaves undefined (a conversion without a matching
    argument) or that uses a directive outside the modelled subset. *)
Definition M (A : Type) : Type := stdout -> option (A * stdout).

Definition ret {A} (a : A) : M A := fun out => Some (a, out).

Definition bind {A B} (m : M A) (k : A -> M B) : M B :=
  fun out =>
    match m out with
    | Some (a, out') => k a out'
    | None => None
    end.

Notation "x <- m ;; k" := (bind m (fun x => k))
  (at level 61, m at next level, right associativity).
Notation "m ;;; k" := (bind m (fun _ => k))
  (at level 61, right associativity).

(** A C statement: executed for its effect only. *)
Definition stmt := M unit.

(** The empty block [{ }]. *)
Definition skip : stmt := ret tt.

(** [do { body } while(0)]: the body runs once. *)
Definition do_while_0 (body : stmt) : stmt := body.

(** [if (c) { s }] with no [else]. *)
Definition if_then (c : bool) (s : stmt) : stmt :=
  if c then s else skip.

(** The output of a computation started on an empty stream. *)
Definition output {A} (m : M A) : option stdout :=
  match m "" with
  | Some (_, out) => Some out
  | None => None
  end.

(** The value returned by a computation started on an empty stream. *)
Definition result {A} (m : M A) : option A :=
  match m "" with
  | Some (a, _) => Some a
  | None => None
  end.

(** ** The host's [printf]

    The subset of the C library's [printf] that the program uses: ordinary
    characters, [%%], and the conversions [d], [i] and [s] with the [-]
    flag, a minimum field width and, for [s], a precision. *)

Inductive arg : Type :=
| AInt (i : Z)
| AStr (s : string).

Fixpoint spaces (n : nat) : string :=
  match n with
  | O => ""
  | S n' => String " " (spaces n')
  end.

(** Pad [s] with blanks up to the field width [w]: on the right when the
    [-] flag is given, on the left otherwise.  Longer text is kept whole. *)
Definition pad (minus : bool) (w : nat) (s : string) : string :=
  if minus then s ++ spaces (w - String.length s) else spaces (w - String.length s) ++ s.

(** A precision on [%s] keeps at most that many characters. *)
Definition truncate (p : option nat) (s : string) : string :=
  match p with
  | Some n => substring 0 n s
  | None => s
  end.

Definition decimal (z : Z) : string := NilZero.string_of_int (Z.to_int z).

Definition digit_of (c : ascii) : option nat :=
  let n := nat_of_ascii c in
  if ((48 <=? n) && (n <=? 57))%nat then Some (n - 48)%nat else None.

(** One conversion: the text it produces and the arguments left over. *)
Definition convert (c : ascii) (minus : bool) (w : nat) (p : option nat)
    (args : list arg) : option (string * list arg) :=
  if Ascii.eqb c "d" || Ascii.eqb c "i" then
    match p, args with
    | None, AInt z :: rest => Some (pad minus w (decimal z), rest)
    | _, _ => None
    end
  else if Ascii.eqb c "s" then
    match args with
    | AStr s :: rest => Some (pad minus w (truncate p s), rest)
    | _ => None
    end
  else None.

(** Where the scan of the format string stands. *)
Inductive pmode : Type :=
| Plain
| Flags (minus : bool)
| Width (minus : bool) (w : nat)
| Precision (minus : bool) (w : nat) (p : nat).

Definition emit_conversion (r : option (string * list arg))
    (k : list arg -> option string) : option string :=
  match r with
  | Some (s, args') =>
      match k args' with
      | Some t => Some (s ++ t)
      | None => None
      end
  | None => None
  end.

Fixpoint format (m : pmode) (fmt : string) (args : list arg) : option string :=
  match fmt with
  | EmptyString =>
      match m with
      | Plain => Some ""
      | _ => None
      end
  | String c rest =>
      match m with
      | Plain =>
          if Ascii.eqb c "%" then format (Flags false) rest args
          else
            match format Plain rest args with
            | Some t => Some (String c t)
            | None => None
            end
      | Flags minus =>
          if Ascii.eqb c "-" then format (Flags true) rest args
          else if Ascii.eqb c "%" then
            if minus then None
            else
              match format Plain rest args with
              | Some t => Some (String "%" t)
              | None => None
              end
          else if Ascii.eqb c "." then format (Precision minus 0 0) rest args
          else if Ascii.eqb c "0" then None
          else
            match digit_of c with
            | Some n => format (Width minus n) rest args
            | None =>
                emit_conversion (convert c minus 0 None args)
                                (format Plain rest)
            end
      | Width minus w =>
          if Ascii.eqb c "." then format (Precision minus w 0) rest args
          else
            match digit_of c with
            | Some n => format (Width minus (10 * w + n)) rest args
            | None =>
                emit_conversion (convert c minus w None args)
                                (format Plain rest)
            end
      | Precision minus w p =>
          match digit_of c with
          | Some n => format (Precision minus w (10 * p + n)) rest args
          | None =>
              emit_conversion (convert c minus w (Some p) args)
                              (format Plain rest)
          end
      end
  end.

(** [printf(fmt, args...)]: appends the formatted text to the stream and
    returns the number of characters written. *)
Definition printf (fmt : string) (args : list arg) : M Z :=
  fun out =>
    match format Plain fmt args with
    | Some s => Some (Z.of_nat (String.length s), out ++ s)
    | None => None
    end.

(** The one-character string written by [printf("\n")]. *)
Definition LF : string := String (ascii_of_nat 10) "".

(** ** The macros of [logging.c] *)

Definition LOG_DEBUG : Z := 5.
Definition LOG_INFO : Z := 4.
Definition LOG_WARNING : Z := 3.
Definition LOG_ERROR : Z := 2.
Definition LOG_FATAL : Z := 1.
Definition LOG_NONE : Z := 0.

(** What one translation unit is compiled with: the value given to
    [SERIAL_VERBOSITY] and, for each [LOG_*_SMART_SWITCH], the value it was
    defined to before the file's defaults are reached, if any. *)
Record defines : Type := {
  SERIAL_VERBOSITY : Z;
  D_LOG_DEBUG_SMART_SWITCH : option Z;
  D_LOG_INFO_SMART_SWITCH : option Z;
  D_LOG_WARNING_SMART_SWITCH : option Z;
  D_LOG_ERROR_SMART_SWITCH : option Z;
  D_LOG_FATAL_SMART_SWITCH : option Z
}.

(** [#ifndef X / #define X default / #endif] *)
Definition ifndef_define (given : option Z) (default : Z) : Z :=
  match given with
  | Some v => v
  | None => default
  end.

Definition LOG_DEBUG_SMART_SWITCH (d : defines) : Z :=
  ifndef_define (D_LOG_DEBUG_SMART_SWITCH d) LOG_DEBUG.
Definition LOG_INFO_SMART_SWITCH (d : defines) : Z :=
  ifndef_define (D_LOG_INFO_SMART_SWITCH d) LOG_INFO.
Definition LOG_WARNING_SMART_SWITCH (d : defines) : Z :=
  ifndef_define (D_LOG_WARNING_SMART_SWITCH d) LOG_WARNING.
Definition LOG_ERROR_SMART_SWITCH (d : defines) : Z :=
  ifndef_define (D_LOG_ERROR_SMART_SWITCH d) LOG_ERROR.
Definition LOG_FATAL_SMART_SWITCH (d : defines) : Z :=
  ifndef_define (D_LOG_FATAL_SMART_SWITCH d) LOG_FATAL.

Definition max_debug_levels : Z := 9.

(** [_log_internal(fmt, ...)]: the three [printf] calls, or nothing at all
    when [SERIAL_VERBOSITY <= LOG_NONE]. *)
Definition _log_internal (d : defines) (__FILE__ : string) (__LINE__ : Z)
    (fmt : string) (va_args : list arg) : stmt :=
  if SERIAL_VERBOSITY d <=? LOG_NONE then do_while_0 skip
  else
    do_while_0 (
      printf "[%-30.30s: %-4d] " [AStr __FILE__; AInt __LINE__] ;;;
      printf fmt va_args ;;;
      printf LF [] ;;;
      ret tt).

(** The severity argument of [_log] once the macros in it are expanded:
    an integer literal, or an identifier naming a variable (with the value
    the variable holds when the statement runs). *)
Inductive level_arg : Type :=
| Literal (n : Z)
| Identifier (name : string) (value : Z).

(** The argument read as a C expression. *)
Definition level_value (level : level_arg) : Z :=
  match level with
  | Literal n => n
  | Identifier _ v => v
  end.

(** [literal ## .0]: pasting [.0] onto an integer literal [n] gives the
    floating constant [n.0]; pasted onto an identifier it gives no valid
    token and the build fails. *)
Definition ENFORCE_INTEGER_LITERAL (literal : level_arg) : build Q :=
  match literal with
  | Literal n => Built (inject_Z n + (0 # 10))%Q
  | Identifier name _ =>
      BuildError ("pasting " ++ name ++ " and .0 does not give a valid preprocessing token")
  end.

(** A floating operand of [&&] counts as true when it compares unequal
    to zero. *)
Definition nonzero (q : Q) : bool := negb (Qeq_bool q 0).

(** [_log(level, fmt, ...)] *)
Definition _log (d : defines) (__FILE__ : string) (__LINE__ : Z)
    (level : level_arg) (fmt : string) (va_args : list arg) : build stmt :=
  build_bind (ENFORCE_INTEGER_LITERAL level) (fun enforced =>
    Built (do_while_0 (
      if_then (nonzero enforced && (level_value level <=? SERIAL_VERBOSITY d))
              (_log_internal d __FILE__ __LINE__ fmt va_args)))).

(** [LOGi(fmt, ...)] as first defined: [_log] at [LOG_INFO]. *)
Definition LOGi_gated (d : defines) (__FILE__ : string) (__LINE__ : Z)
    (fmt : string) (va_args : list arg) : build stmt :=
  s <-- _log d __FILE__ __LINE__ (Literal LOG_INFO) fmt va_args ;;
  Built (do_while_0 s).

(** [LOGi(fmt, ...)] as the program sees it: redefined to nothing when
    [SERIAL_VERBOSITY < LOG_INFO]. *)
Definition LOGi (d : defines) (__FILE__ : string) (__LINE__ : Z)
    (fmt : string) (va_args : list arg) : build stmt :=
  if SERIAL_VERBOSITY d <? LOG_INFO then Built (do_while_0 skip)
  else LOGi_gated d __FILE__ __LINE__ fmt va_args.

(** [LOGf(fmt, ...)] *)
Definition LOGf (d : defines) (__FILE__ : string) (__LINE__ : Z)
    (fmt : string) (va_args : list arg) : build stmt :=
  s <-- _log d __FILE__ __LINE__ (Literal LOG_FATAL) fmt va_args ;;
  Built (do_while_0 s).

(** The two blocks of [main] under [#ifdef FORBIDDEN_STATEMENTS].  The
    macro is defined and undefined again before [main], so neither block is
    part of the program; they are kept apart from [main] here. *)
Definition forbidden_level_statement (d : defines) : build stmt :=
  let level := LOG_INFO in
  _log d "logging.c" 119 (Identifier "level" level) "Log test!" [].

Definition forbidden_loop_body (d : defines) (i : Z) : build stmt :=
  _log d "logging.c" 149 (Identifier "i" i) "Hello debug level %i" [AInt i].

(** [main], compiled as [logging.c]. *)
Definition main (d : defines) : build (M Z) :=
  s113 <-- _log d "logging.c" 113 (Literal LOG_INFO) "Log test!" [] ;;
  s115 <-- _log d "logging.c" 115 (Literal (LOG_DEBUG_SMART_SWITCH d))
               "Log test of module!" [] ;;
  s125 <-- LOGi d "logging.c" 125 "Check precompiler output!" [] ;;
  Built (s113 ;;; s115 ;;; s125 ;;; ret 0).

(** ** The Makefile's targets *)

Definition no_switches (verbosity : Z) : defines :=
  {| SERIAL_VERBOSITY := verbosity;
     D_LOG_DEBUG_SMART_SWITCH := None;
     D_LOG_INFO_SMART_SWITCH := None;
     D_LOG_WARNING_SMART_SWITCH := None;
     D_LOG_ERROR_SMART_SWITCH := None;
     D_LOG_FATAL_SMART_SWITCH := None |}.

(** [all]: [-DSERIAL_VERBOSITY=LOG_FATAL] *)
Definition make_all : defines := no_switches LOG_FATAL.

(** [module]: [-DSERIAL_VERBOSITY=LOG_INFO -DLOG_DEBUG_SMART_SWITCH=LOG_INFO] *)
Definition make_module : defines :=
  {| SERIAL_VERBOSITY := LOG_INFO;
     D_LOG_DEBUG_SMART_SWITCH := Some LOG_INFO;
     D_LOG_INFO_SMART_SWITCH := None;
     D_LOG_WARNING_SMART_SWITCH := None;
     D_LOG_ERROR_SMART_SWITCH := None;
     D_LOG_FATAL_SMART_SWITCH := None |}.

(** [no-output]: [-DSERIAL_VERBOSITY=LOG_NONE] *)
Definition make_no_output : defines := no_switches LOG_NONE.

(** A translation unit built with
    [-DSERIAL_VERBOSITY=LOG_FATAL -DLOG_INFO_SMART_SWITCH=LOG_DEBUG]. *)
Definition info_switch_as_debug : defines :=
  {| SERIAL_VERBOSITY := LOG_FATAL;
     D_LOG_DEBUG_SMART_SWITCH := None;
     D_LOG_INFO_SMART_SWITCH := Some LOG_DEBUG;
     D_LOG_WARNING_SMART_SWITCH := None;
     D_LOG_ERROR_SMART_SWITCH := None;
     D_LOG_FATAL_SMART_SWITCH := None |}.

(** Running what a macro call or [main] was built to. *)
Definition run {A} (b : build (M A)) : build (option stdout) :=
  match b with
  | Built m => Built (output m)
  | BuildError why => BuildError why
  end.

(** ** Vocabulary of the properties *)

(** The six severity levels. *)
Definition is_level (L : Z) : Prop := LOG_NONE <= L <= LOG_DEBUG.

(** A call writes something. *)
Definition emits (r : build (option stdout)) : Prop :=
  exists out, r = Built (Some out) /\ out <> "".

(** A call builds, runs and writes nothing. *)
Definition silent (r : build (option stdout)) : Prop :=
  r = Built (Some "").

(** Number of line terminators in a text. *)
Fixpoint newlines (s : string) : nat :=
  match s with
  | EmptyString => O
  | String c rest =>
      ((if Ascii.eqb c (ascii_of_nat 10) then 1 else 0) + newlines rest)%nat
  end.

(** The location label in its 30 columns and the line number in its 4. *)
Definition label_field (file : string) : string :=
  pad true 30 (truncate (Some 30%nat) file).

Definition line_field (line : Z) : string :=
  pad true 4 (decimal line).

(** What the first [printf] of [_log_internal] writes. *)
Definition location_prefix (file : string) (line : Z) : string :=
  "[" ++ label_field file ++ ": " ++ line_field line ++ "] ".

(** The whole line of an admitted call, given its formatted message. *)
Definition log_line (file : string) (line : Z) (msg : string) : string :=
  location_prefix file line ++ msg ++ LF.

(** The five names a translation unit can redefine. *)
Inductive smart_switch : Type :=
| DEBUG_SWITCH
| INFO_SWITCH
| WARNING_SWITCH
| ERROR_SWITCH
| FATAL_SWITCH.

Definition all_switches : list smart_switch :=
  [DEBUG_SWITCH; INFO_SWITCH; WARNING_SWITCH; ERROR_SWITCH; FATAL_SWITCH].

(** The level a switch is named after. *)
Definition own_level (s : smart_switch) : Z :=
  match s with
  | DEBUG_SWITCH => LOG_DEBUG
  | INFO_SWITCH => LOG_INFO
  | WARNING_SWITCH => LOG_WARNING
  | ERROR_SWITCH => LOG_ERROR
  | FATAL_SWITCH => LOG_FATAL
  end.

(** What the translation unit defined the switch to, if anything. *)
Definition override (d : defines) (s : smart_switch) : option Z :=
  match s with
  | DEBUG_SWITCH => D_LOG_DEBUG_SMART_SWITCH d
  | INFO_SWITCH => D_LOG_INFO_SMART_SWITCH d
  | WARNING_SWITCH => D_LOG_WARNING_SMART_SWITCH d
  | ERROR_SWITCH => D_LOG_ERROR_SMART_SWITCH d
  | FATAL_SWITCH => D_LOG_FATAL_SMART_SWITCH d
  end.

(** What the switch's name expands to at a call site. *)
Definition switch_value (d : defines) (s : smart_switch) : Z :=
  match s with
  | DEBUG_SWITCH => LOG_DEBUG_SMART_SWITCH d
  | INFO_SWITCH => LOG_INFO_SMART_SWITCH d
  | WARNING_SWITCH => LOG_WARNING_SMART_SWITCH d
  | ERROR_SWITCH => LOG_ERROR_SMART_SWITCH d
  | FATAL_SWITCH => LOG_FATAL_SMART_SWITCH d
  end.

(** Two statements that cannot be told apart by running them. *)
Definition same_behaviour (b1 b2 : build stmt) : Prop :=
  exists s1 s2, b1 = Built s1 /\ b2 = Built s2 /\ forall out, s1 out = s2 out.

(** ** Further vocabulary *)

(** [#if SERIAL_VERBOSITY > LOG_NONE / #include <stdio.h> / #endif]:
    whether [printf] is declared in the translation unit. *)
Definition stdio_included (d : defines) : bool :=
  SERIAL_VERBOSITY d >? LOG_NONE.

(** Whether a call of [_log] at the literal level [n] reaches [printf]:
    the condition of [_log] holds and [_log_internal] is not emptied. *)
Definition admitted (d : defines) (n : Z) : bool :=
  negb (n =? 0) && (n <=? SERIAL_VERBOSITY d)
  && (LOG_NONE <? SERIAL_VERBOSITY d).

(** A line that is there or not. *)
Definition line_if (c : bool) (s : string) : string :=
  if c then s else "".

(** What [main] writes, call by call in the order of the source. *)
Definition main_output (d : defines) : string :=
  line_if (admitted d LOG_INFO) (log_line "logging.c" 113 "Log test!")
  ++ line_if (admitted d (LOG_DEBUG_SMART_SWITCH d))
             (log_line "logging.c" 115 "Log test of module!")
  ++ line_if (admitted d LOG_INFO)
             (log_line "logging.c" 125 "Check precompiler output!").

(** Every character of a text passes a test. *)
Fixpoint all_chars (p : ascii -> bool) (s : string) : bool :=
  match s with
  | EmptyString => true
  | String c rest => p c && all_chars p rest
  end.

(** A text is empty or starts with a character that fails a test. *)
Definition stops (p : ascii -> bool) (s : string) : bool :=
  match s with
  | EmptyString => true
  | String c _ => negb (p c)
  end.

(** The characters a printed number is made of. *)
Definition is_decimal_char (c : ascii) : bool :=
  Ascii.eqb c "-" || match digit_of c with Some _ => true | None => false end.

Definition not_blank (c : ascii) : bool := negb (Ascii.eqb c " ").

(** Number of characters in front of the message on a line whose number
    has at most four digits: the bracket, 30 columns, colon and blank,
    4 columns, bracket and blank. *)
Definition message_column : nat := 39.

(** ** Facts about strings *)

Section StringFacts.

Lemma string_app_assoc (a b c : string) : (a ++ b) ++ c = a ++ (b ++ c).
Proof. induction a as [|x a IH]; simpl; [reflexivity | now rewrite IH]. Qed.

Lemma string_app_nil_r (a : string) : a ++ "" = a.
Proof. induction a as [|x a IH]; simpl; [reflexivity | now rewrite IH]. Qed.

Lemma length_app (a b : string) :
  String.length (a ++ b) = (String.length a + String.length b)%nat.
Proof. induction a as [|x a IH]; simpl; [reflexivity | now rewrite IH]. Qed.

Lemma length_spaces (n : nat) : String.length (spaces n) = n.
Proof. induction n as [|n IH]; simpl; [reflexivity | now rewrite IH]. Qed.

Lemma length_substring_le (s : string) (n : nat) :
  (String.length s <= n)%nat -> substring 0 n s = s.
Proof.
  revert n; induction s as [|x s IH]; intros [|n] H; simpl in *;
    try reflexivity; try lia.
  now rewrite IH by lia.
Qed.

Lemma length_substring_ge (s : string) (n : nat) :
  (n <= String.length s)%nat -> String.length (substring 0 n s) = n.
Proof.
  revert n; induction s as [|x s IH]; intros [|n] H; simpl in *;
    try reflexivity; try lia.
  now rewrite IH by lia.
Qed.

Lemma length_pad (minus : bool) (w : nat) (s : string) :
  String.length (pad minus w s) = Nat.max w (String.length s).
Proof.
  unfold pad; destruct minus; rewrite length_app, length_spaces; lia.
Qed.

Lemma newlines_app (a b : string) :
  newlines (a ++ b) = (newlines a + newlines b)%nat.
Proof.
  induction a as [|x a IH]; simpl; [reflexivity | rewrite IH; lia].
Qed.

Lemma newlines_spaces (n : nat) : newlines (spaces n) = O.
Proof. induction n as [|n IH]; simpl; [reflexivity | exact IH]. Qed.

Lemma newlines_pad (minus : bool) (w : nat) (s : string) :
  newlines (pad minus w s) = newlines s.
Proof.
  unfold pad; destruct minus; rewrite newlines_app, newlines_spaces; lia.
Qed.

Lemma newlines_substring (s : string) (n : nat) :
  (newlines (substring 0 n s) <= newlines s)%nat.
Proof.
  revert n; induction s as [|x s IH]; intros [|n]; simpl; try lia.
  specialize (IH n); lia.
Qed.

Lemma newlines_uint (u : Decimal.uint) :
  newlines (NilEmpty.string_of_uint u) = O.
Proof. induction u; simpl; auto. Qed.

Lemma newlines_decimal (z : Z) : newlines (decimal z) = O.
Proof.
  unfold decimal, NilZero.string_of_int, NilZero.string_of_uint.
  destruct (Z.to_int z) as [u|u]; destruct u; simpl;
    try reflexivity; apply newlines_uint.
Qed.

Lemma length_label_field (file : string) :
  String.length (label_field file) = 30%nat.
Proof.
  unfold label_field, truncate. rewrite length_pad.
  destruct (Nat.le_gt_cases 30 (String.length file)) as [H|H].
  - rewrite length_substring_ge by exact H. reflexivity.
  - rewrite length_substring_le by lia. lia.
Qed.

Lemma label_field_short (file : string) :
  (String.length file <= 30)%nat ->
  label_field file = file ++ spaces (30 - String.length file).
Proof.
  intros H. unfold label_field, truncate, pad.
  now rewrite length_substring_le by exact H.
Qed.

Lemma label_field_long (file : string) :
  (30 <= String.length file)%nat ->
  label_field file = substring 0 30 file.
Proof.
  intros H. unfold label_field, truncate, pad.
  rewrite length_substring_ge by exact H.
  change (spaces (30 - 30)) with "". apply string_app_nil_r.
Qed.

Lemma newlines_location_prefix (file : string) (line : Z) :
  newlines file = O -> newlines (location_prefix file line) = O.
Proof.
  intros H. unfold location_prefix, label_field, line_field, truncate.
  rewrite !newlines_app, !newlines_pad, newlines_decimal.
  pose proof (newlines_substring file 30). simpl. lia.
Qed.

End StringFacts.

(** ** How the macros run *)

Section Expansion.

Variable d : defines.
Variables (file : string) (line : Z).

Lemma nonzero_enforced (n : Z) :
  nonzero (inject_Z n + (0 # 10)) = negb (n =? 0).
Proof.
  unfold nonzero, Qeq_bool, Qplus, inject_Z; simpl.
  f_equal.
  destruct (Z.eqb_spec n 0) as [->|Hn]; [reflexivity|].
  apply Z.eqb_neq. lia.
Qed.

Lemma format_location :
  format Plain "[%-30.30s: %-4d] " [AStr file; AInt line]
  = Some (location_prefix file line).
Proof. reflexivity. Qed.

Lemma format_LF : format Plain LF [] = Some LF.
Proof. reflexivity. Qed.

Lemma log_internal_disabled (fmt : string) (args : list arg) (out : stdout) :
  SERIAL_VERBOSITY d <= LOG_NONE ->
  _log_internal d file line fmt args out = Some (tt, out).
Proof.
  intros H. unfold _log_internal.
  destruct (Z.leb_spec (SERIAL_VERBOSITY d) LOG_NONE); [reflexivity | lia].
Qed.

Lemma log_internal_prints (fmt : string) (args : list arg) (msg : string)
    (out : stdout) :
  LOG_NONE < SERIAL_VERBOSITY d ->
  format Plain fmt args = Some msg ->
  _log_internal d file line fmt args out
  = Some (tt, out ++ log_line file line msg).
Proof.
  intros H Hmsg. unfold _log_internal.
  destruct (Z.leb_spec (SERIAL_VERBOSITY d) LOG_NONE); [lia|].
  unfold do_while_0, bind, printf, ret.
  rewrite format_location, Hmsg, format_LF.
  unfold log_line. now rewrite !string_app_assoc.
Qed.

Lemma log_literal (n : Z) (fmt : string) (args : list arg) :
  _log d file line (Literal n) fmt args
  = Built (if_then (negb (n =? 0) && (n <=? SERIAL_VERBOSITY d))
                   (_log_internal d file line fmt args)).
Proof.
  unfold _log, ENFORCE_INTEGER_LITERAL, build_bind, do_while_0, level_value.
  now rewrite nonzero_enforced.
Qed.

Lemma log_identifier (name : string) (v : Z) (fmt : string) (args : list arg) :
  exists why, _log d file line (Identifier name v) fmt args = BuildError why.
Proof. eexists; reflexivity. Qed.

(** A literal level that the condition rejects, or any literal level when
    nothing is printed at all, leaves the stream as it was. *)
Lemma log_suppressed (n : Z) (fmt : string) (args : list arg) :
  n = 0 \/ SERIAL_VERBOSITY d < n \/ SERIAL_VERBOSITY d <= LOG_NONE ->
  exists s, _log d file line (Literal n) fmt args = Built s
            /\ forall out, s out = Some (tt, out).
Proof.
  intros H. rewrite log_literal. eexists; split; [reflexivity|].
  intros out. unfold if_then.
  destruct (negb (n =? 0) && (n <=? SERIAL_VERBOSITY d)) eqn:E;
    [|reflexivity].
  apply andb_true_iff in E as [E1 E2].
  apply negb_true_iff, Z.eqb_neq in E1. apply Z.leb_le in E2.
  apply log_internal_disabled. lia.
Qed.

Lemma log_admitted (n : Z) (fmt : string) (args : list arg) (msg : string) :
  n <> 0 -> n <= SERIAL_VERBOSITY d -> LOG_NONE < SERIAL_VERBOSITY d ->
  format Plain fmt args = Some msg ->
  exists s, _log d file line (Literal n) fmt args = Built s
            /\ forall out, s out = Some (tt, out ++ log_line file line msg).
Proof.
  intros Hn Hle Hv Hmsg. rewrite log_literal.
  eexists; split; [reflexivity|]. intros out. unfold if_then.
  apply Z.eqb_neq in Hn. apply Z.leb_le in Hle. rewrite Hn, Hle. simpl.
  now apply log_internal_prints.
Qed.

Lemma silent_not_emits (r : build (option stdout)) : silent r -> ~ emits r.
Proof.
  unfold silent, emits. intros -> (out & E & Hne).
  injection E as <-. now apply Hne.
Qed.

Lemma run_suppressed (n : Z) (fmt : string) (args : list arg) :
  n = 0 \/ SERIAL_VERBOSITY d < n \/ SERIAL_VERBOSITY d <= LOG_NONE ->
  silent (run (_log d file line (Literal n) fmt args)).
Proof.
  intros H. destruct (log_suppressed n fmt args H) as (s & -> & Hs).
  unfold silent, run, output. now rewrite Hs.
Qed.

Lemma run_admitted (n : Z) (fmt : string) (args : list arg) (msg : string) :
  n <> 0 -> n <= SERIAL_VERBOSITY d -> LOG_NONE < SERIAL_VERBOSITY d ->
  format Plain fmt args = Some msg ->
  run (_log d file line (Literal n) fmt args)
  = Built (Some (log_line file line msg)).
Proof.
  intros Hn Hle Hv Hmsg.
  destruct (log_admitted n fmt args msg Hn Hle Hv Hmsg) as (s & -> & Hs).
  unfold run, output. now rewrite Hs.
Qed.

Lemma emits_iff (n : Z) (fmt : string) (args : list arg) (msg : string) :
  format Plain fmt args = Some msg ->
  emits (run (_log d file line (Literal n) fmt args))
  <-> n <> LOG_NONE /\ n <= SERIAL_VERBOSITY d
      /\ LOG_NONE < SERIAL_VERBOSITY d.
Proof.
  intros Hmsg. unfold LOG_NONE. split.
  - intros He.
    destruct (Z.eq_dec n 0) as [H0|H0];
      [|destruct (Z_le_gt_dec n (SERIAL_VERBOSITY d)) as [Hle|Hgt];
        [destruct (Z_le_gt_dec (SERIAL_VERBOSITY d) 0) as [Hv|Hv]|]];
      try lia; exfalso; revert He; apply silent_not_emits, run_suppressed;
      unfold LOG_NONE; lia.
  - intros (H0 & Hle & Hv). exists (log_line file line msg).
    split; [now apply run_admitted | discriminate].
Qed.

Lemma log_line_not_empty (msg : string) : log_line file line msg <> "".
Proof. discriminate. Qed.

Lemma newlines_log_line (msg : string) :
  newlines file = O -> newlines msg = O ->
  newlines (log_line file line msg) = 1%nat.
Proof.
  intros Hf Hm. unfold log_line.
  rewrite !newlines_app, newlines_location_prefix, Hm by exact Hf.
  reflexivity.
Qed.

End Expansion.

(** ** The wrappers *)

Lemma LOGf_unfold (d : defines) (file : string) (line : Z) (fmt : string)
    (args : list arg) :
  LOGf d file line fmt args = _log d file line (Literal LOG_FATAL) fmt args.
Proof. unfold LOGf. now rewrite log_literal. Qed.

Lemma LOGi_gated_unfold (d : defines) (file : string) (line : Z) (fmt : string)
    (args : list arg) :
  LOGi_gated d file line fmt args
  = _log d file line (Literal LOG_INFO) fmt args.
Proof. unfold LOGi_gated. now rewrite log_literal. Qed.

Lemma LOGi_same_as_gated (d : defines) (file : string) (line : Z)
    (fmt : string) (args : list arg) :
  same_behaviour (LOGi d file line fmt args)
                 (_log d file line (Literal LOG_INFO) fmt args).
Proof.
  unfold LOGi. destruct (Z.ltb_spec (SERIAL_VERBOSITY d) LOG_INFO) as [H|H].
  - destruct (log_suppressed d file line LOG_INFO fmt args) as (s & E & Hs);
      [right; left; exact H|].
    exists (do_while_0 skip), s. repeat split; [exact E|].
    intros out. now rewrite Hs.
  - rewrite LOGi_gated_unfold, log_literal.
    eexists _, _. repeat split.
Qed.

(** ** The severity ordering and the gate *)

(** C1, as the code has it: for a literal level [L] and a threshold, both
    among the six levels, and a well-formed message, a call of [_log]
    writes something if and only if [L] is not [LOG_NONE] and [L] is at most
    the threshold; otherwise it writes nothing; and what it writes is the
    one line [log_line], which holds exactly one line terminator when
    neither the label nor the message contains one. *)
Theorem log_emits_iff_admitted (d : defines) (file : string) (line : Z)
    (L : Z) (fmt : string) (args : list arg) (msg : string) :
  is_level L ->
  is_level (SERIAL_VERBOSITY d) ->
  format Plain fmt args = Some msg ->
  (emits (run (_log d file line (Literal L) fmt args))
   <-> L <> LOG_NONE /\ L <= SERIAL_VERBOSITY d)
  /\ (~ emits (run (_log d file line (Literal L) fmt args))
      -> silent (run (_log d file line (Literal L) fmt args)))
  /\ (emits (run (_log d file line (Literal L) fmt args))
      -> run (_log d file line (Literal L) fmt args)
         = Built (Some (log_line file line msg))
         /\ (newlines file = O -> newlines msg = O ->
             newlines (log_line file line msg) = 1%nat)).
Proof.
  unfold is_level, LOG_NONE, LOG_DEBUG. intros HL HT Hmsg.
  destruct (Z.eq_dec L 0) as [H0|H0];
    [|destruct (Z_le_gt_dec L (SERIAL_VERBOSITY d)) as [Hle|Hgt]].
  - pose proof (run_suppressed d file line L fmt args (or_introl H0)) as Hs.
    pose proof (silent_not_emits _ Hs) as Hn.
    split; [tauto|]. split; [intros _; exact Hs | intros He; contradiction].
  - assert (Hv : LOG_NONE < SERIAL_VERBOSITY d) by (unfold LOG_NONE; lia).
    pose proof (run_admitted d file line L fmt args msg H0 Hle Hv Hmsg) as Hr.
    assert (He : emits (run (_log d file line (Literal L) fmt args))).
    { exists (log_line file line msg). split; [exact Hr | discriminate]. }
    split; [tauto|]. split; [intros Hn; contradiction|].
    intros _. split; [exact Hr|].
    intros Hf Hm. now apply newlines_log_line.
  - assert (Hs : silent (run (_log d file line (Literal L) fmt args))).
    { apply run_suppressed. right; left; lia. }
    pose proof (silent_not_emits _ Hs) as Hn.
    split; [split; [intros He; contradiction | intros (_ & Hle); lia]|].
    split; [intros _; exact Hs | intros He; contradiction].
Qed.

Lemma log_emits_iff_admitted_witness :
  emits (run (_log make_all "mod.c" 50 (Literal LOG_FATAL)
                   "Log test of module!" []))
  <-> LOG_FATAL <> LOG_NONE /\ LOG_FATAL <= SERIAL_VERBOSITY make_all.
Proof.
  apply (log_emits_iff_admitted make_all "mod.c" 50 LOG_FATAL
           "Log test of module!" [] "Log test of module!").
  - unfold is_level, LOG_NONE, LOG_FATAL, LOG_DEBUG; lia.
  - unfold is_level; simpl; unfold LOG_NONE, LOG_FATAL, LOG_DEBUG; lia.
  - reflexivity.
Defined.

(** C1, as the specification words it, fails at level [LOG_NONE]: under the
    threshold [LOG_DEBUG] the level is numerically below the threshold and
    the call still writes nothing. *)
Lemma none_level_below_threshold_is_silent :
  is_level LOG_NONE /\ is_level LOG_DEBUG /\
  ~ (emits (run (_log (no_switches LOG_DEBUG) "mod.c" 42 (Literal LOG_NONE)
                      "Log test!" []))
     <-> LOG_NONE <= LOG_DEBUG).
Proof.
  split; [|split]; try (unfold is_level, LOG_NONE, LOG_DEBUG; lia).
  intros [_ H].
  assert (He : LOG_NONE <= LOG_DEBUG) by (unfold LOG_NONE, LOG_DEBUG; lia).
  destruct (H He) as (out & E & Hne).
  vm_compute in E. injection E as <-. now apply Hne.
Qed.

(** ** The layout of a line *)

(** C2, as the code has it: an admitted call writes ['['], the label in 30
    columns (cut to its first 30 characters, blanks added on the right),
    [": "], the line number in at least 4 columns (blanks added on the
    right), ["] "], the message and a line terminator; the call at
    [mod.c], line 50, writes the label followed by 25 blanks and the
    number followed by 2 blanks. *)
Theorem admitted_line_layout :
  (forall (d : defines) (file : string) (line : Z) (L : Z) (fmt : string)
          (args : list arg) (msg : string),
      L <> LOG_NONE -> L <= SERIAL_VERBOSITY d ->
      LOG_NONE < SERIAL_VERBOSITY d ->
      format Plain fmt args = Some msg ->
      run (_log d file line (Literal L) fmt args)
      = Built (Some ("[" ++ label_field file ++ ": " ++ line_field line
                         ++ "] " ++ msg ++ LF))
      /\ String.length (label_field file) = 30%nat
      /\ label_field file
         = substring 0 30 file ++ spaces (30 - String.length file)
      /\ line_field line
         = decimal line ++ spaces (4 - String.length (decimal line)))
  /\ run (_log make_all "mod.c" 50 (Literal LOG_FATAL)
               "Log test of module!" [])
     = Built (Some ("[mod.c                         : 50  ] Log test of module!"
                    ++ LF)).
Proof.
  split; [|reflexivity].
  intros d file line L fmt args msg H0 Hle Hv Hmsg.
  split; [|split; [|split]].
  - rewrite (run_admitted d file line L fmt args msg H0 Hle Hv Hmsg).
    unfold log_line, location_prefix. now rewrite !string_app_assoc.
  - apply length_label_field.
  - destruct (Nat.le_gt_cases (String.length file) 30) as [H|H].
    + rewrite label_field_short by exact H.
      now rewrite length_substring_le by exact H.
    + rewrite label_field_long by lia.
      replace (30 - String.length file)%nat with O by lia.
      now rewrite string_app_nil_r.
  - reflexivity.
Qed.

Lemma admitted_line_layout_witness :
  run (_log make_all "mod.c" 50 (Literal LOG_FATAL) "Log test of module!" [])
  = Built (Some ("[" ++ label_field "mod.c" ++ ": " ++ line_field 50
                     ++ "] " ++ "Log test of module!" ++ LF)).
Proof.
  refine (proj1 (proj1 admitted_line_layout make_all "mod.c" 50 LOG_FATAL
                   "Log test of module!" [] "Log test of module!" _ _ _ _)).
  - unfold LOG_FATAL, LOG_NONE; lia.
  - simpl; unfold LOG_FATAL; lia.
  - simpl; unfold LOG_FATAL, LOG_NONE; lia.
  - reflexivity.
Defined.

(** C2, as the specification words it, fails on its example: the line the
    call writes is not the one quoted, which has 24 blanks after the label
    and the number set to the right of its field. *)
Lemma fatal_example_line_differs :
  run (_log make_all "mod.c" 50 (Literal LOG_FATAL) "Log test of module!" [])
  <> Built (Some ("[mod.c                        :  50 ] Log test of module!"
                  ++ LF)).
Proof. vm_compute. discriminate. Qed.

(** ** Total suppression *)

(** C4: when [SERIAL_VERBOSITY] is [LOG_NONE], no call writes anything:
    [_log] at any literal level builds and leaves the output empty, so do
    [LOGi] and [LOGf], and no severity argument whatever makes a call
    write. *)
Theorem threshold_none_suppresses_everything (d : defines) (file : string)
    (line : Z) (fmt : string) (args : list arg) :
  SERIAL_VERBOSITY d = LOG_NONE ->
  (forall n, silent (run (_log d file line (Literal n) fmt args)))
  /\ (forall level, ~ emits (run (_log d file line level fmt args)))
  /\ silent (run (LOGi d file line fmt args))
  /\ silent (run (LOGf d file line fmt args)).
Proof.
  intros Hv.
  assert (Hall : forall n, silent (run (_log d file line (Literal n) fmt args))).
  { intros n. apply run_suppressed. right; right. rewrite Hv. reflexivity. }
  split; [exact Hall|]. split; [|split].
  - intros [n|name v].
    + apply silent_not_emits, Hall.
    + intros (out & E & _). discriminate E.
  - unfold LOGi. rewrite Hv. reflexivity.
  - rewrite LOGf_unfold. apply Hall.
Qed.

Lemma threshold_none_suppresses_everything_witness :
  silent (run (_log make_no_output "mod.c" 50 (Literal LOG_FATAL)
                    "Log test of module!" [])).
Proof.
  refine (proj1 (threshold_none_suppresses_everything make_no_output "mod.c" 50
                   "Log test of module!" [] _) LOG_FATAL).
  reflexivity.
Defined.

(** C8: under every threshold a call at level [LOG_NONE] writes nothing:
    the guard makes the level the constant [0.0], which counts as false,
    although [LOG_NONE] is at most every threshold among the levels, the
    largest one [LOG_DEBUG] included. *)
Theorem none_level_never_emits (d : defines) (file : string) (line : Z)
    (fmt : string) (args : list arg) :
  silent (run (_log d file line (Literal LOG_NONE) fmt args))
  /\ (exists q, ENFORCE_INTEGER_LITERAL (Literal LOG_NONE) = Built q
                /\ (q == 0)%Q /\ nonzero q = false)
  /\ silent (run (_log (no_switches LOG_DEBUG) file line (Literal LOG_NONE)
                       fmt args))
  /\ LOG_NONE <= SERIAL_VERBOSITY (no_switches LOG_DEBUG).
Proof.
  split; [|split; [|split]].
  - apply run_suppressed. now left.
  - eexists. split; [reflexivity|]. split; reflexivity.
  - apply run_suppressed. now left.
  - simpl. unfold LOG_NONE, LOG_DEBUG. lia.
Qed.

(** ** The wrappers against the gated form *)

(** C9: under every threshold [LOGf] behaves as [_log] at [LOG_FATAL] and
    [LOGi] behaves as [_log] at [LOG_INFO]; when the threshold is below
    [LOG_INFO], [LOGi] is the empty statement and the gated form writes
    nothing either. *)
Theorem wrappers_same_as_gated (d : defines) (file : string) (line : Z)
    (fmt : string) (args : list arg) :
  same_behaviour (LOGf d file line fmt args)
                 (_log d file line (Literal LOG_FATAL) fmt args)
  /\ same_behaviour (LOGi d file line fmt args)
                    (_log d file line (Literal LOG_INFO) fmt args)
  /\ (SERIAL_VERBOSITY d < LOG_INFO ->
      LOGi d file line fmt args = Built (do_while_0 skip)
      /\ silent (run (LOGi d file line fmt args))
      /\ silent (run (_log d file line (Literal LOG_INFO) fmt args))).
Proof.
  split; [|split].
  - rewrite LOGf_unfold, log_literal. eexists _, _. repeat split.
  - apply LOGi_same_as_gated.
  - intros H. unfold LOGi.
    destruct (Z.ltb_spec (SERIAL_VERBOSITY d) LOG_INFO) as [_|H']; [|lia].
    split; [reflexivity|]. split; [reflexivity|].
    apply run_suppressed. right; left; exact H.
Qed.

Lemma wrappers_same_as_gated_witness :
  LOGi make_all "logging.c" 125 "Check precompiler output!" []
  = Built (do_while_0 skip).
Proof.
  refine (proj1 (proj2 (proj2 (wrappers_same_as_gated make_all "logging.c" 125
                                 "Check precompiler output!" [])) _)).
  simpl; unfold LOG_FATAL, LOG_INFO; lia.
Defined.

(** ** The program *)

(** C10: built with the threshold [LOG_FATAL] and no switch redefined,
    [main] writes nothing and returns 0, and each of its three log calls
    (at [LOG_INFO], at [LOG_DEBUG_SMART_SWITCH], which is [LOG_DEBUG] here,
    and through [LOGi]) writes nothing. *)
Theorem main_default_build_is_silent :
  (exists m, main make_all = Built m
             /\ result m = Some 0
             /\ output m = Some ""
             /\ forall out, m out = Some (0, out))
  /\ run (main make_all) = Built (Some "")
  /\ LOG_DEBUG_SMART_SWITCH make_all = LOG_DEBUG
  /\ silent (run (_log make_all "logging.c" 113 (Literal LOG_INFO)
                       "Log test!" []))
  /\ silent (run (_log make_all "logging.c" 115
                       (Literal (LOG_DEBUG_SMART_SWITCH make_all))
                       "Log test of module!" []))
  /\ silent (run (LOGi make_all "logging.c" 125
                       "Check precompiler output!" [])).
Proof.
  split; [|repeat split].
  eexists. split; [reflexivity|]. repeat split.
Qed.

(** ** The switches *)

Lemma switch_value_override (d : defines) (s : smart_switch) :
  switch_value d s = ifndef_define (override d s) (own_level s).
Proof. destruct s; reflexivity. Qed.

(** C6: there are five switches, one for each level other than
    [LOG_NONE]; a switch the translation unit leaves undefined expands to
    the level it is named after, so a call through it is the call at that
    level. *)
Theorem five_switches_default_to_own_level :
  List.length all_switches = 5%nat
  /\ NoDup all_switches
  /\ (forall s, In s all_switches)
  /\ map own_level all_switches
     = [LOG_DEBUG; LOG_INFO; LOG_WARNING; LOG_ERROR; LOG_FATAL]
  /\ (forall L, is_level L -> L <> LOG_NONE -> exists s, own_level s = L)
  /\ (forall s, is_level (own_level s) /\ own_level s <> LOG_NONE)
  /\ (forall (d : defines) (s : smart_switch),
         override d s = None ->
         switch_value d s = own_level s
         /\ forall file line fmt args,
              _log d file line (Literal (switch_value d s)) fmt args
              = _log d file line (Literal (own_level s)) fmt args).
Proof.
  split; [reflexivity|]. split; [|split; [|split; [|split; [|split]]]].
  - repeat constructor; simpl; intuition discriminate.
  - intros []; simpl; tauto.
  - reflexivity.
  - unfold is_level, LOG_NONE, LOG_DEBUG. intros L HL H0.
    assert (H : L = 1 \/ L = 2 \/ L = 3 \/ L = 4 \/ L = 5) by lia.
    destruct H as [->|[->|[->|[->| ->]]]].
    + now exists FATAL_SWITCH.
    + now exists ERROR_SWITCH.
    + now exists WARNING_SWITCH.
    + now exists INFO_SWITCH.
    + now exists DEBUG_SWITCH.
  - intros []; unfold is_level; simpl;
      unfold LOG_NONE, LOG_FATAL, LOG_ERROR, LOG_WARNING, LOG_INFO, LOG_DEBUG;
      lia.
  - intros d s H.
    assert (E : switch_value d s = own_level s)
      by (rewrite switch_value_override, H; reflexivity).
    split; [exact E|]. intros. now rewrite E.
Qed.

Lemma five_switches_default_to_own_level_witness :
  switch_value make_all DEBUG_SWITCH = own_level DEBUG_SWITCH.
Proof.
  refine (proj1 (proj2 (proj2 (proj2 (proj2 (proj2 (proj2
            five_switches_default_to_own_level)))))
            make_all DEBUG_SWITCH _)).
  reflexivity.
Defined.

(** C5, as the code has it: what a switch is defined to takes the place of
    the level in the calls that name the switch in that translation unit,
    and the call is then held against [SERIAL_VERBOSITY] like any literal
    level: it writes if and only if that value is not [LOG_NONE], is at
    most the threshold, and the threshold is above [LOG_NONE].  In the
    Makefile's [module] build (threshold [LOG_INFO], the DEBUG switch set
    to [LOG_INFO]) the call of [main] through the DEBUG switch writes its
    line, a call at plain [LOG_DEBUG] writes nothing, and the same call
    through the switch in a unit that leaves it undefined writes nothing. *)
Theorem switch_replaces_level_before_gate :
  (forall (d : defines) (s : smart_switch) (v : Z) (file : string) (line : Z)
          (fmt : string) (args : list arg) (msg : string),
      override d s = Some v ->
      format Plain fmt args = Some msg ->
      switch_value d s = v
      /\ _log d file line (Literal (switch_value d s)) fmt args
         = _log d file line (Literal v) fmt args
      /\ (emits (run (_log d file line (Literal (switch_value d s)) fmt args))
          <-> v <> LOG_NONE /\ v <= SERIAL_VERBOSITY d
              /\ LOG_NONE < SERIAL_VERBOSITY d))
  /\ run (_log make_module "logging.c" 115
               (Literal (LOG_DEBUG_SMART_SWITCH make_module))
               "Log test of module!" [])
     = Built (Some (log_line "logging.c" 115 "Log test of module!"))
  /\ silent (run (_log make_module "logging.c" 115 (Literal LOG_DEBUG)
                       "Log test of module!" []))
  /\ silent (run (_log (no_switches LOG_INFO) "logging.c" 115
                       (Literal (LOG_DEBUG_SMART_SWITCH (no_switches LOG_INFO)))
                       "Log test of module!" [])).
Proof.
  split; [|repeat split].
  intros d s v file line fmt args msg Ho Hmsg.
  assert (E : switch_value d s = v)
    by (rewrite switch_value_override, Ho; reflexivity).
  split; [exact E|]. rewrite E. split; [reflexivity|].
  exact (emits_iff d file line v fmt args msg Hmsg).
Qed.

Lemma switch_replaces_level_before_gate_witness :
  switch_value make_module DEBUG_SWITCH = LOG_INFO.
Proof.
  refine (proj1 (proj1 switch_replaces_level_before_gate make_module
                   DEBUG_SWITCH LOG_INFO "logging.c" 115
                   "Log test of module!" [] "Log test of module!" _ _)).
  - reflexivity.
  - reflexivity.
Defined.

(** C5, as the specification words it, fails: with the INFO switch set to
    [LOG_DEBUG] and the threshold [LOG_FATAL], a call through the INFO
    switch writes nothing. *)
Lemma info_switch_as_debug_stays_silent :
  override info_switch_as_debug INFO_SWITCH = Some LOG_DEBUG
  /\ SERIAL_VERBOSITY info_switch_as_debug = LOG_FATAL
  /\ ~ emits (run (_log info_switch_as_debug "mod.c" 42
                        (Literal (LOG_INFO_SMART_SWITCH info_switch_as_debug))
                        "Log test!" [])).
Proof.
  split; [reflexivity|]. split; [reflexivity|].
  apply silent_not_emits. reflexivity.
Qed.

(** ** Severity arguments that are not literals *)

(** C7, as the code has it: [_log] with an identifier as severity does not
    build, whatever value the variable holds, because the guard pastes
    [.0] onto the name, and so neither block of [main] that does it
    builds; with the literal levels 3 to 8 in its place and
    the threshold [LOG_FATAL], the statement of the loop in [main] builds
    and writes nothing. *)
Theorem identifier_level_rejected :
  (forall (d : defines) (file : string) (line : Z) (name : string) (v : Z)
          (fmt : string) (args : list arg),
      (exists why,
          ENFORCE_INTEGER_LITERAL (Identifier name v) = BuildError why)
      /\ (exists why,
             _log d file line (Identifier name v) fmt args = BuildError why)
      /\ ~ emits (run (_log d file line (Identifier name v) fmt args)))
  /\ (forall (d : defines) (i : Z),
         exists why, forbidden_loop_body d i = BuildError why)
  /\ (forall d : defines,
         exists why, forbidden_level_statement d = BuildError why)
  /\ (forall i : Z,
         3 <= i < max_debug_levels ->
         silent (run (_log make_all "logging.c" 149 (Literal i)
                           "Hello debug level %i" [AInt i]))).
Proof.
  split; [|split; [|split]].
  - intros. split; [eexists; reflexivity|]. split; [eexists; reflexivity|].
    intros (out & E & _). discriminate E.
  - intros. eexists; reflexivity.
  - intros. eexists; reflexivity.
  - intros i Hi. apply run_suppressed. right; left.
    simpl. unfold LOG_FATAL. lia.
Qed.

Lemma identifier_level_rejected_witness :
  silent (run (_log make_all "logging.c" 149 (Literal 3)
                    "Hello debug level %i" [AInt 3])).
Proof.
  refine (proj2 (proj2 (proj2 identifier_level_rejected)) 3 _).
  unfold max_debug_levels; lia.
Defined.

(** C7, as the specification words it, fails: the statement of the loop in
    [main], with the variable [i] as severity, is not built into anything
    that could check the level when the program runs. *)
Lemma loop_statement_does_not_build :
  ~ exists s, forbidden_loop_body make_all 3 = Built s.
Proof. intros (s & E). discriminate E. Qed.

(** ** What a call does to a stream that already holds text *)

Lemma admitted_spec (d : defines) (n : Z) :
  admitted d n = true
  <-> n <> LOG_NONE /\ n <= SERIAL_VERBOSITY d /\ LOG_NONE < SERIAL_VERBOSITY d.
Proof.
  unfold admitted, LOG_NONE.
  rewrite !andb_true_iff, negb_true_iff, Z.eqb_neq, Z.leb_le, Z.ltb_lt.
  tauto.
Qed.

Lemma log_literal_on (d : defines) (file : string) (line : Z) (n : Z)
    (fmt : string) (args : list arg) :
  exists s, _log d file line (Literal n) fmt args = Built s
    /\ forall out,
         s out = if admitted d n
                 then match format Plain fmt args with
                      | Some msg => Some (tt, out ++ log_line file line msg)
                      | None => None
                      end
                 else Some (tt, out).
Proof.
  rewrite log_literal. eexists; split; [reflexivity|]. intros out.
  destruct (admitted d n) eqn:A.
  - apply admitted_spec in A as (H0 & Hle & Hv).
    unfold if_then. pose proof Hv as Hv'. unfold LOG_NONE in H0, Hv'.
    apply Z.eqb_neq in H0. apply Z.leb_le in Hle.
    rewrite H0, Hle. simpl.
    destruct (format Plain fmt args) as [msg|] eqn:F.
    + now apply log_internal_prints.
    + unfold _log_internal.
      destruct (Z.leb_spec (SERIAL_VERBOSITY d) LOG_NONE);
        [unfold LOG_NONE in *; lia|].
      unfold do_while_0, bind, printf. rewrite format_location, F. reflexivity.
  - destruct (log_suppressed d file line n fmt args) as (s & E & Hs).
    + destruct (Z.eq_dec n 0) as [H0|H0]; [now left|right].
      destruct (Z_le_gt_dec n (SERIAL_VERBOSITY d)) as [Hle|Hgt]; [|left; lia].
      right. destruct (Z_le_gt_dec (SERIAL_VERBOSITY d) LOG_NONE); [assumption|].
      exfalso. assert (admitted d n = true); [|congruence].
      apply admitted_spec. unfold LOG_NONE in *. repeat split; lia.
    + rewrite log_literal in E. injection E as <-. apply Hs.
Qed.

Lemma run_literal (d : defines) (file : string) (line : Z) (n : Z)
    (fmt : string) (args : list arg) :
  run (_log d file line (Literal n) fmt args)
  = Built (if admitted d n
           then match format Plain fmt args with
                | Some msg => Some (log_line file line msg)
                | None => None
                end
           else Some "").
Proof.
  destruct (log_literal_on d file line n fmt args) as (s & -> & Hs).
  unfold run, output. rewrite Hs.
  destruct (admitted d n); [|reflexivity].
  destruct (format Plain fmt args); reflexivity.
Qed.

Lemma log_appends_to_stream_on (d : defines) (file : string) (line : Z)
    (n : Z) (fmt : string) (args : list arg) :
  exists s, _log d file line (Literal n) fmt args = Built s
    /\ forall out,
         s out = match output s with
                 | Some written => Some (tt, out ++ written)
                 | None => None
                 end.
Proof.
  destruct (log_literal_on d file line n fmt args) as (s & E & Hs).
  exists s. split; [exact E|]. intros out.
  unfold output. rewrite (Hs out), (Hs "").
  destruct (admitted d n).
  - destruct (format Plain fmt args); reflexivity.
  - now rewrite string_app_nil_r.
Qed.

(** X1: a call of [_log] at a literal level only ever adds to the end of
    the stream: on a stream that already holds text it leaves that text in
    place and appends exactly what it writes on an empty stream, and it is
    undefined on the one exactly when it is on the other; [LOGi] and
    [LOGf] do the same. *)
Theorem log_appends_to_stream (d : defines) (file : string) (line : Z)
    (n : Z) (fmt : string) (args : list arg) :
  (exists s, _log d file line (Literal n) fmt args = Built s
     /\ forall out,
          s out = match output s with
                  | Some written => Some (tt, out ++ written)
                  | None => None
                  end)
  /\ (exists s, LOGi d file line fmt args = Built s
        /\ forall out,
             s out = match output s with
                     | Some written => Some (tt, out ++ written)
                     | None => None
                     end)
  /\ (exists s, LOGf d file line fmt args = Built s
        /\ forall out,
             s out = match output s with
                     | Some written => Some (tt, out ++ written)
                     | None => None
                     end).
Proof.
  split; [apply log_appends_to_stream_on|]. split.
  - destruct (LOGi_same_as_gated d file line fmt args)
      as (s1 & s2 & E1 & E2 & H).
    destruct (log_appends_to_stream_on d file line LOG_INFO fmt args)
      as (s & E & Hs).
    rewrite E in E2. injection E2 as <-.
    exists s1. split; [exact E1|]. intros out.
    unfold output. rewrite !H. exact (Hs out).
  - rewrite LOGf_unfold. apply log_appends_to_stream_on.
Qed.

(** ** The whole program in every build *)

Lemma LOGi_on (d : defines) (file : string) (line : Z) (fmt : string)
    (args : list arg) :
  exists s, LOGi d file line fmt args = Built s
    /\ forall out,
         s out = if admitted d LOG_INFO
                 then match format Plain fmt args with
                      | Some msg => Some (tt, out ++ log_line file line msg)
                      | None => None
                      end
                 else Some (tt, out).
Proof.
  destruct (LOGi_same_as_gated d file line fmt args) as (s1 & s2 & E1 & E2 & H).
  destruct (log_literal_on d file line LOG_INFO fmt args) as (s & E & Hs).
  rewrite E in E2. injection E2 as <-.
  exists s1. split; [exact E1|]. intros out. now rewrite H.
Qed.

Lemma main_on (d : defines) :
  exists m, main d = Built m
    /\ forall out, m out = Some (0, out ++ main_output d).
Proof.
  destruct (log_literal_on d "logging.c" 113 LOG_INFO "Log test!" [])
    as (s1 & E1 & H1).
  destruct (log_literal_on d "logging.c" 115 (LOG_DEBUG_SMART_SWITCH d)
              "Log test of module!" []) as (s2 & E2 & H2).
  destruct (LOGi_on d "logging.c" 125 "Check precompiler output!" [])
    as (s3 & E3 & H3).
  exists (s1 ;;; s2 ;;; s3 ;;; ret 0). split.
  { unfold main. rewrite E1, E2, E3. reflexivity. }
  change (format Plain "Log test!" []) with (Some "Log test!") in H1.
  change (format Plain "Log test of module!" [])
    with (Some "Log test of module!") in H2.
  change (format Plain "Check precompiler output!" [])
    with (Some "Check precompiler output!") in H3.
  revert H1 H2 H3. unfold main_output, line_if.
  destruct (admitted d LOG_INFO), (admitted d (LOG_DEBUG_SMART_SWITCH d));
    intros H1 H2 H3 out; unfold bind, ret;
    rewrite H1; cbv beta iota; rewrite H2; cbv beta iota; rewrite H3;
    cbv beta iota; rewrite ?string_app_assoc; try reflexivity;
    rewrite ?string_app_nil_r; reflexivity.
Qed.


(** X3: raising the threshold never takes a line away: a call that writes
    something under one threshold writes the same text under every larger
    one, whatever the switches of the two builds are. *)
Theorem raising_threshold_keeps_output (d d' : defines) (file : string)
    (line : Z) (n : Z) (fmt : string) (args : list arg) (out : stdout) :
  SERIAL_VERBOSITY d <= SERIAL_VERBOSITY d' ->
  run (_log d file line (Literal n) fmt args) = Built (Some out) ->
  out <> "" ->
  run (_log d' file line (Literal n) fmt args) = Built (Some out).
Proof.
  intros Hle Hrun Hne. rewrite run_literal in *.
  destruct (admitted d n) eqn:A.
  - apply admitted_spec in A as (H0 & Hn & Hv).
    assert (A' : admitted d' n = true) by (apply admitted_spec; lia).
    now rewrite A'.
  - injection Hrun as <-. now contradiction Hne.
Qed.

Lemma raising_threshold_keeps_output_witness :
  run (_log (no_switches LOG_DEBUG) "mod.c" 50 (Literal LOG_FATAL)
            "Log test of module!" [])
  = Built (Some (log_line "mod.c" 50 "Log test of module!")).
Proof.
  apply (raising_threshold_keeps_output make_all (no_switches LOG_DEBUG)).
  - simpl; unfold LOG_FATAL, LOG_DEBUG; lia.
  - reflexivity.
  - discriminate.
Defined.



(** X5: a call that is not admitted never looks at its template or its
    arguments: it behaves the same whatever they are and writes nothing
    even when they do not fit together, a mismatch that leaves an admitted
    call without a defined result. *)
Theorem suppressed_call_ignores_template (d : defines) (file : string)
    (line : Z) (n : Z) (fmt fmt' : string) (args args' : list arg) :
  (n = LOG_NONE \/ SERIAL_VERBOSITY d < n \/ SERIAL_VERBOSITY d <= LOG_NONE ->
   same_behaviour (_log d file line (Literal n) fmt args)
                  (_log d file line (Literal n) fmt' args')
   /\ silent (run (_log d file line (Literal n) fmt args)))
  /\ (n <> LOG_NONE -> n <= SERIAL_VERBOSITY d ->
      LOG_NONE < SERIAL_VERBOSITY d ->
      format Plain fmt args = None ->
      run (_log d file line (Literal n) fmt args) = Built None).
Proof.
  split.
  - intros H. split; [|now apply run_suppressed].
    destruct (log_suppressed d file line n fmt args H) as (s & E & Hs).
    destruct (log_suppressed d file line n fmt' args' H) as (s' & E' & Hs').
    exists s, s'. split; [exact E|]. split; [exact E'|].
    intros out. now rewrite Hs, Hs'.
  - intros H0 Hle Hv Hf. rewrite run_literal, Hf.
    assert (A : admitted d n = true) by (apply admitted_spec; tauto).
    now rewrite A.
Qed.

Lemma suppressed_call_ignores_template_witness :
  silent (run (_log make_all "mod.c" 42 (Literal LOG_INFO) "%d and %s" [])).
Proof.
  refine (proj2 (proj1 (suppressed_call_ignores_template make_all "mod.c" 42
                          LOG_INFO "%d and %s" "Log test!" [] []) _)).
  right; left. simpl; unfold LOG_FATAL, LOG_INFO; lia.
Defined.

(** X8: in a build that does not include [stdio.h], that is with a
    threshold of [LOG_NONE] or less, no macro leaves a call of [printf]
    behind: [_log_internal] and [LOGi] are the empty statement, [_log] at
    any literal level writes nothing, and [main] writes nothing and
    returns 0. *)
Theorem no_stdio_build_never_prints (d : defines) :
  stdio_included d = false ->
  (forall file line fmt args,
      _log_internal d file line fmt args = do_while_0 skip)
  /\ (forall file line fmt args,
         LOGi d file line fmt args = Built (do_while_0 skip))
  /\ (forall file line n fmt args,
         silent (run (_log d file line (Literal n) fmt args)))
  /\ run (main d) = Built (Some "")
  /\ exists m, main d = Built m /\ result m = Some 0.
Proof.
  unfold stdio_included. intros H.
  assert (Hv : SERIAL_VERBOSITY d <= LOG_NONE).
  { destruct (Z.gtb_spec (SERIAL_VERBOSITY d) LOG_NONE); [discriminate|lia]. }
  assert (Hadm : forall n, admitted d n = false).
  { intros n. destruct (admitted d n) eqn:A; [|reflexivity].
    apply admitted_spec in A. lia. }
  split; [|split; [|split; [|split]]].
  - intros. unfold _log_internal.
    destruct (Z.leb_spec (SERIAL_VERBOSITY d) LOG_NONE); [reflexivity|lia].
  - intros. unfold LOGi.
    destruct (Z.ltb_spec (SERIAL_VERBOSITY d) LOG_INFO); [reflexivity|].
    unfold LOG_NONE, LOG_INFO in *. lia.
  - intros. apply run_suppressed. right; right. exact Hv.
  - destruct (main_on d) as (m & E & Hm).
    rewrite E. unfold run, output. rewrite Hm. unfold main_output.
    now rewrite !Hadm.
  - destruct (main_on d) as (m & E & Hm).
    exists m. split; [exact E|]. unfold result. now rewrite Hm.
Qed.

Lemma no_stdio_build_never_prints_witness :
  run (main make_no_output) = Built (Some "").
Proof.
  refine (proj1 (proj2 (proj2 (proj2
            (no_stdio_build_never_prints make_no_output _))))).
  reflexivity.
Defined.

(** ** The location in front of the message *)

Lemma decimal_upto_9999 :
  forallb (fun k => (String.length (decimal (Z.of_nat k)) <=? 4)%nat)
          (seq 0 (Z.to_nat 10000)) = true.
Proof. vm_compute. reflexivity. Qed.

Lemma length_decimal_small (line : Z) :
  0 <= line <= 9999 -> (String.length (decimal line) <= 4)%nat.
Proof.
  intros H. pose proof decimal_upto_9999 as C.
  rewrite forallb_forall in C. specialize (C (Z.to_nat line)).
  rewrite Z2Nat.id in C by lia. apply Nat.leb_le, C, in_seq. lia.
Qed.

Lemma length_location_prefix (file : string) (line : Z) :
  String.length (location_prefix file line)
  = (35 + Nat.max 4 (String.length (decimal line)))%nat.
Proof.
  unfold location_prefix, line_field.
  rewrite !length_app, length_label_field, length_pad. simpl. lia.
Qed.

Lemma substring_middle (a b c : string) :
  substring (String.length a) (String.length b) (a ++ b ++ c) = b.
Proof.
  induction a as [|x a IH]; simpl; [|exact IH].
  induction b as [|y b IHb]; simpl.
  - now destruct c.
  - now rewrite IHb.
Qed.

(** X6: on a line whose number is between 0 and 9999 the message always
    starts after 39 characters, whatever the file name and the number are,
    so it can be cut out of the line at that place; the line is as long as
    those 39 characters, the message and the line terminator. *)
Theorem message_starts_at_fixed_column (file : string) (line : Z)
    (msg : string) :
  0 <= line <= 9999 ->
  String.length (location_prefix file line) = message_column
  /\ substring message_column (String.length msg) (log_line file line msg)
     = msg
  /\ String.length (log_line file line msg)
     = (message_column + String.length msg + 1)%nat.
Proof.
  intros H. pose proof (length_decimal_small line H) as Hd.
  assert (Hp : String.length (location_prefix file line) = message_column).
  { rewrite length_location_prefix. unfold message_column. lia. }
  split; [exact Hp|]. split.
  - rewrite <- Hp. unfold log_line. apply substring_middle.
  - unfold log_line. rewrite !length_app, Hp. simpl. lia.
Qed.

Lemma message_starts_at_fixed_column_witness :
  substring message_column (String.length "Log test of module!")
            (log_line "mod.c" 50 "Log test of module!")
  = "Log test of module!".
Proof.
  refine (proj1 (proj2 (message_starts_at_fixed_column "mod.c" 50
                          "Log test of module!" _))).
  lia.
Defined.

Lemma app_inj_length (a b x y : string) :
  String.length a = String.length b -> a ++ x = b ++ y -> a = b /\ x = y.
Proof.
  revert b; induction a as [|c a IH]; intros [|c' b] Hl H; simpl in *;
    try discriminate.
  - now split.
  - injection H as -> H. injection Hl as Hl.
    destruct (IH b Hl H) as [-> ->]. now split.
Qed.

Lemma span_unique (p : ascii -> bool) (a b x y : string) :
  all_chars p a = true -> all_chars p b = true ->
  stops p x = true -> stops p y = true ->
  a ++ x = b ++ y -> a = b.
Proof.
  revert b; induction a as [|c a IH]; intros [|c' b] Ha Hb Hx Hy H;
    simpl in *.
  - reflexivity.
  - subst x. simpl in Hx. apply andb_true_iff in Hb as [Hc _].
    rewrite Hc in Hx. discriminate.
  - subst y. simpl in Hy. apply andb_true_iff in Ha as [Hc _].
    rewrite Hc in Hy. discriminate.
  - injection H as -> H.
    apply andb_true_iff in Ha as [_ Ha]. apply andb_true_iff in Hb as [_ Hb].
    f_equal. now apply (IH b).
Qed.

Lemma uint_chars (u : Decimal.uint) :
  all_chars is_decimal_char (NilEmpty.string_of_uint u) = true.
Proof. induction u; simpl; auto. Qed.

Lemma decimal_chars (z : Z) : all_chars is_decimal_char (decimal z) = true.
Proof.
  unfold decimal, NilZero.string_of_int, NilZero.string_of_uint.
  destruct (Z.to_int z) as [u|u]; destruct u;
    try reflexivity; try apply uint_chars;
    change (all_chars is_decimal_char (String "-" ?s)) with
      (all_chars is_decimal_char s); try apply uint_chars.
Qed.

Lemma decimal_inj (z1 z2 : Z) : decimal z1 = decimal z2 -> z1 = z2.
Proof.
  unfold decimal. intros H. apply to_int_inj.
  assert (N : forall z, Z.to_int z <> Decimal.Pos Decimal.Nil
                        /\ Z.to_int z <> Decimal.Neg Decimal.Nil).
  { intros [|p|p]; simpl; split; try discriminate;
      intros E; injection E as E; now apply Unsigned.to_uint_nonnil in E. }
  assert (S : Some (Z.to_int z1) = Some (Z.to_int z2)).
  { rewrite <- (NilZero.isi (Z.to_int z1)) by apply N.
    rewrite <- (NilZero.isi (Z.to_int z2)) by apply N.
    now rewrite H. }
  now injection S.
Qed.

Lemma stops_after_number (k : nat) :
  stops is_decimal_char (spaces k ++ "] ") = true.
Proof. destruct k; reflexivity. Qed.

Lemma stops_after_name (k : nat) : stops not_blank (spaces k) = true.
Proof. destruct k; reflexivity. Qed.

Lemma substring_app_long (a t : string) (k : nat) :
  (k <= String.length a)%nat -> substring 0 k (a ++ t) = substring 0 k a.
Proof.
  revert k; induction a as [|c a IH]; intros [|k] H; simpl in *;
    try reflexivity; try lia.
  - now destruct t.
  - now rewrite IH by lia.
Qed.

(** X7: the text in front of the message tells the call site: two calls
    write the same location exactly when their line numbers are equal and
    their labels are; file names of at most 30 characters without blanks
    have different labels when they differ, while whatever follows the
    30th character of a name is lost. *)
Theorem location_prefix_identifies_call_site (f1 f2 : string) (l1 l2 : Z) :
  (location_prefix f1 l1 = location_prefix f2 l2
   <-> label_field f1 = label_field f2 /\ l1 = l2)
  /\ ((String.length f1 <= 30)%nat -> (String.length f2 <= 30)%nat ->
      all_chars not_blank f1 = true -> all_chars not_blank f2 = true ->
      label_field f1 = label_field f2 -> f1 = f2)
  /\ ((30 <= String.length f1)%nat ->
      forall tail, label_field (f1 ++ tail) = label_field f1).
Proof.
  split; [|split].
  - split.
    + unfold location_prefix. intros H. simpl in H. injection H as H.
      apply app_inj_length in H as [Hl H];
        [|now rewrite !length_label_field].
      split; [exact Hl|]. simpl in H. injection H as H.
      unfold line_field, pad in H. rewrite !string_app_assoc in H.
      apply decimal_inj.
      apply (span_unique is_decimal_char _ _ _ _
               (decimal_chars l1) (decimal_chars l2)
               (stops_after_number _) (stops_after_number _) H).
    + intros [Hl ->]. unfold location_prefix. now rewrite Hl.
  - intros H1 H2 B1 B2 H.
    rewrite !label_field_short in H by assumption.
    exact (span_unique not_blank _ _ _ _ B1 B2
             (stops_after_name _) (stops_after_name _) H).
  - intros H tail. unfold label_field, truncate.
    now rewrite substring_app_long by exact H.
Qed.

Lemma location_prefix_identifies_call_site_witness :
  label_field ("a_very_long_file_name_of_30_ch" ++ "aracters.c")
  = label_field "a_very_long_file_name_of_30_ch".
Proof.
  refine (proj2 (proj2 (location_prefix_identifies_call_site
                          "a_very_long_file_name_of_30_ch" "mod.c" 1 2))
                _ "aracters.c").
  simpl; lia.
Defined.

(** ** Calls one after the other *)

(** X9: two calls of [_log] at literal levels, run one after the other,
    write what the first writes followed by what the second writes, and
    have a defined result exactly when both have one. *)
Theorem calls_in_sequence_concatenate (d : defines)
    (file1 file2 : string) (line1 line2 : Z) (n1 n2 : Z)
    (fmt1 fmt2 : string) (args1 args2 : list arg) :
  exists s1 s2,
    _log d file1 line1 (Literal n1) fmt1 args1 = Built s1
    /\ _log d file2 line2 (Literal n2) fmt2 args2 = Built s2
    /\ output (s1 ;;; s2)
       = match output s1, output s2 with
         | Some w1, Some w2 => Some (w1 ++ w2)
         | _, _ => None
         end.
Proof.
  destruct (log_appends_to_stream_on d file1 line1 n1 fmt1 args1)
    as (s1 & E1 & H1).
  destruct (log_appends_to_stream_on d file2 line2 n2 fmt2 args2)
    as (s2 & E2 & H2).
  exists s1, s2. split; [exact E1|]. split; [exact E2|].
  unfold output at 1. unfold bind. rewrite (H1 "").
  destruct (output s1) as [w1|]; [|reflexivity].
  rewrite (H2 ("" ++ w1)).
  destruct (output s2) as [w2|]; reflexivity.
Qed.
